(** * WebSocket room handlers of poln-server: connection registry and
      timer broadcast

    A shallow embedding of the four WebSocket Lambda handlers ([connect],
    [disconnect], [joinLeague], [timerUpdate]) together with the two
    collaborators they talk to: the DynamoDB connections table and the
    API Gateway management API.

    - The connections table is a finite map keyed by the pair
      (leagueId, connectionId), the table's partition and sort key.
    - A handler is a computation in a state-and-exception monad over a
      [world]: the table, the commands sent to the store, the trace of
      [PostToConnection] calls and the console.
    - Everything the handlers cannot decide themselves (whether a store
      call is rejected, what the transport answers for a connection, the
      clock) is read from an [oracle] that is fixed for one invocation.
    - [JSON.parse] is a parameter of the development. *)

From stdpp Require Import gmap strings list fin_maps pretty.

Local Open Scope Z_scope.
Local Open Scope string_scope.

(** ** JavaScript values *)

(** Values produced by [JSON.parse].  Numbers are kept as integers: the
    handlers only ever observe whether a number is zero. *)
#[local] Unset Elimination Schemes.
Inductive json : Type :=
  | JNull
  | JBool (b : bool)
  | JNum (n : Z)
  | JStr (s : string)
  | JArr (items : list json)
  | JObj (fields : list (string * json)).
#[local] Set Elimination Schemes.

(** A JavaScript value is [undefined] ([None]) or a JSON value. *)
Abbreviation jsval := (option json).
Abbreviation undefined := (@None json).

(** [!v] is [negb (truthy v)]. *)
Definition truthy (v : jsval) : bool :=
  match v with
  | None => false
  | Some JNull => false
  | Some (JBool b) => b
  | Some (JNum n) => negb (Z.eqb n 0)
  | Some (JStr s) => negb (String.eqb s "")
  | Some (JArr _) => true
  | Some (JObj _) => true
  end.

(** [a || b] *)
Definition js_or (a b : jsval) : jsval := if truthy a then a else b.

(** Own-property lookup in a parsed object; a key that occurs twice in the
    text keeps its last value. *)
Fixpoint assoc_last (k : string) (fields : list (string * json)) : jsval :=
  match fields with
  | [] => None
  | (k', v) :: rest =>
      match assoc_last k rest with
      | Some v' => Some v'
      | None => if String.eqb k' k then Some v else None
      end
  end.

(** [v.k] for a value [v] that is neither [null] nor [undefined];
    primitives and arrays have none of the property names used here. *)
Definition get_prop (v : json) (k : string) : jsval :=
  match v with
  | JObj fields => assoc_last k fields
  | _ => None
  end.

(** String conversion as done by a template literal. *)
Fixpoint js_string (j : json) : string :=
  match j with
  | JNull => "null"
  | JBool true => "true"
  | JBool false => "false"
  | JNum n => pretty n
  | JStr s => s
  | JArr items =>
      String.concat ","
        (List.map (fun x => match x with JNull => "" | _ => js_string x end) items)
  | JObj _ => "[object Object]"
  end.

Definition template (v : jsval) : string :=
  match v with
  | None => "undefined"
  | Some j => js_string j
  end.

(** ** The world the handlers run in *)

(** The attributes of a connection item besides its two keys; [undefined]
    stands for an attribute the item does not have. *)
Record conn_attrs : Type := {
  a_sessionId : jsval;
  a_isCreator : jsval;
  a_connectedAt : string;
}.

(** An item as [QueryCommand] returns it. *)
Record Item : Type := {
  leagueId : string;
  connectionId : string;
  sessionId : jsval;
  isCreator : jsval;
  connectedAt : string;
}.

Definition item_of (kv : (string * string) * conn_attrs) : Item :=
  {| leagueId := kv.1.1;
     connectionId := kv.1.2;
     sessionId := a_sessionId kv.2;
     isCreator := a_isCreator kv.2;
     connectedAt := a_connectedAt kv.2 |}.

Inductive console_line : Type :=
  | console_log (args : list string)
  | console_error (args : list string).

Inductive store_op : Type :=
  | OpPut (key : string * string)
  | OpQuery (partition : string)
  | OpDelete (key : string * string).

(** [table] is the content of the connections table, [calls] the commands
    sent to the store so far, [sent] the [PostToConnection] calls made so
    far, both oldest first. *)
Record world : Type := {
  table : gmap (string * string) conn_attrs;
  calls : list store_op;
  sent : list (string * json);
  console : list console_line;
}.

Definition with_table (t : gmap (string * string) conn_attrs) (w : world) : world :=
  {| table := t; calls := calls w; sent := sent w; console := console w |}.

Definition with_call (op : store_op) (w : world) : world :=
  {| table := table w; calls := calls w ++ [op]; sent := sent w; console := console w |}.

Definition with_sent (s : list (string * json)) (w : world) : world :=
  {| table := table w; calls := calls w; sent := s; console := console w |}.

Definition with_console (c : list console_line) (w : world) : world :=
  {| table := table w; calls := calls w; sent := sent w; console := c |}.

(** What can be thrown inside a handler's [try] block. *)
Inductive exn : Type :=
  | SyntaxError
  | TypeError
  | StoreError
  | TransportError (httpStatusCode : option Z).

Definition exn_name (e : exn) : string :=
  match e with
  | SyntaxError => "SyntaxError"
  | TypeError => "TypeError"
  | StoreError => "StoreError"
  | TransportError _ => "TransportError"
  end.

Inductive post_result : Type :=
  | PostOk
  | PostError (httpStatusCode : option Z).

Global Instance post_result_eq_dec : EqDecision post_result.
Proof. solve_decision. Defined.

(** The environment's answers during one invocation. *)
Record oracle : Type := {
  now : string;
  store_fails : store_op -> bool;
  post_to_connection : string -> json -> post_result;
}.

Record event : Type := {
  ev_connectionId : string;
  ev_body : option string;
}.

Record response : Type := {
  statusCode : Z;
  body : string;
}.

(** ** State and exception monad *)

Definition M (A : Type) : Type := world -> world * (exn + A).

Definition ret {A} (a : A) : M A := fun w => (w, inr a).

Definition throw {A} (e : exn) : M A := fun w => (w, inl e).

Definition bind {A B} (m : M A) (k : A -> M B) : M B :=
  fun w =>
    match m w with
    | (w', inl e) => (w', inl e)
    | (w', inr a) => k a w'
    end.

Definition try_catch {A} (m : M A) (handler : exn -> M A) : M A :=
  fun w =>
    match m w with
    | (w', inl e) => handler e w'
    | (w', inr a) => (w', inr a)
    end.

Declare Scope handler_scope.
Delimit Scope handler_scope with handler.
Notation "'let*' x := m 'in' k" := (bind m (fun x => k))
  (at level 10, x pattern, m at level 100, k at level 200) : handler_scope.
Notation "m ;; k" := (bind m (fun _ => k))
  (at level 100, k at level 200, right associativity) : handler_scope.
Local Open Scope handler_scope.

Definition log (args : list string) : M unit :=
  fun w => (with_console (console w ++ [console_log args]) w, inr tt).

Definition log_error (args : list string) : M unit :=
  fun w => (with_console (console w ++ [console_error args]) w, inr tt).

(** ** The connections table *)

(** Both keys of the table are strings; the store rejects a call whose
    key value has another type. *)
Definition key_of (v : jsval) : option string :=
  match v with
  | Some (JStr s) => Some s
  | _ => None
  end.

(** The items of one partition.  The whole partition is taken to fit in
    one page of the query result. *)
Definition listing (t : gmap (string * string) conn_attrs) (lid : string) : list Item :=
  item_of <$> filter (fun kv => kv.1.1 = lid) (map_to_list t).

(** A store command is recorded, then it is rejected or carried out as
    the oracle says. *)
Definition store_call (o : oracle) (op : store_op) : M unit :=
  fun w =>
    if store_fails o op then (with_call op w, inl StoreError)
    else (with_call op w, inr tt).

Definition put_item (o : oracle) (lid : jsval) (cid : string) (a : conn_attrs) : M unit :=
  match key_of lid with
  | None => throw StoreError
  | Some l =>
      store_call o (OpPut (l, cid));;
      fun w => (with_table (<[(l, cid) := a]> (table w)) w, inr tt)
  end.

Definition query (o : oracle) (lid : jsval) : M (list Item) :=
  match key_of lid with
  | None => throw StoreError
  | Some l =>
      store_call o (OpQuery l);;
      fun w => (w, inr (listing (table w) l))
  end.

Definition delete_item (o : oracle) (lid : jsval) (cid : string) : M unit :=
  match key_of lid with
  | None => throw StoreError
  | Some l =>
      store_call o (OpDelete (l, cid));;
      fun w => (with_table (delete (l, cid) (table w)) w, inr tt)
  end.

(** ** The transport *)

(** [apiGateway.send(new PostToConnectionCommand(...))]: the call is
    recorded, then it resolves or rejects as the oracle says. *)
Definition post (o : oracle) (cid : string) (data : json) : M unit :=
  fun w =>
    let w' := with_sent (sent w ++ [(cid, data)]) w in
    match post_to_connection o cid data with
    | PostOk => (w', inr tt)
    | PostError st => (w', inl (TransportError st))
    end.

(** [error.$metadata?.httpStatusCode] *)
Definition http_status (e : exn) : option Z :=
  match e with
  | TransportError st => st
  | _ => None
  end.

(** ** Promises *)

(** [list.map(async ...)] followed by [Promise.all]: every task runs until
    it settles, whatever the others do; the combined promise rejects when
    one of them rejected.  The tasks take their turn in list order; for
    the send tasks of [timerUpdate] the order is shown to be immaterial
    ([settle_all_order]). *)
Fixpoint settle_all (tasks : list (M unit)) (w : world) : world * list (exn + unit) :=
  match tasks with
  | [] => (w, [])
  | t :: rest =>
      let '(w1, r) := t w in
      let '(w2, rs) := settle_all rest w1 in
      (w2, r :: rs)
  end.

Fixpoint first_rejection (rs : list (exn + unit)) : option exn :=
  match rs with
  | [] => None
  | inl e :: _ => Some e
  | inr _ :: rest => first_rejection rest
  end.

Definition promise_all (tasks : list (M unit)) : M unit :=
  fun w =>
    let '(w', rs) := settle_all tasks w in
    match first_rejection rs with
    | Some e => (w', inl e)
    | None => (w', inr tt)
    end.

(** ** The handlers *)

Definition resp (code : Z) (text : string) : response :=
  {| statusCode := code; body := text |}.

(** [{ k1: v1, ... }] as [JSON.stringify] prints it: properties whose
    value is [undefined] are left out. *)
Fixpoint obj_of (props : list (string * jsval)) : list (string * json) :=
  match props with
  | [] => []
  | (k, Some v) :: rest => (k, v) :: obj_of rest
  | (_, None) :: rest => obj_of rest
  end.

Definition is_410 (st : option Z) : bool :=
  match st with
  | Some n => Z.eqb n 410
  | None => false
  end.

(** [event.body || '{}'] *)
Definition body_text (ev : event) : string :=
  match ev_body ev with
  | None => "{}"
  | Some s => if String.eqb s "" then "{}" else s
  end.

Section Handlers.

Variable JSON_parse : string -> option json.

(** [JSON.parse(event.body || '{}')] *)
Definition parse_body (ev : event) : M json :=
  match JSON_parse (body_text ev) with
  | Some v => ret v
  | None => throw SyntaxError
  end.

(** Destructuring [const { ... } = v] throws on [null]. *)
Definition destructurable (v : json) : M unit :=
  match v with
  | JNull => throw TypeError
  | _ => ret tt
  end.

(** [$connect] *)
Definition connect (ev : event) : M response :=
  log ["WebSocket connected:"; ev_connectionId ev];;
  ret (resp 200 "Connected").


(** [joinLeague]: the client joins a league room. *)
Definition joinLeague (o : oracle) (ev : event) : M response :=
  let connectionId := ev_connectionId ev in
  try_catch
    (let* body := parse_body ev in
     destructurable body;;
     let leagueId := get_prop body "leagueId" in
     let sessionId := get_prop body "sessionId" in
     let isCreator := get_prop body "isCreator" in
     if negb (truthy leagueId) || negb (truthy sessionId) then
       ret (resp 400 "leagueId and sessionId are required")
     else
       put_item o leagueId connectionId
         {| a_sessionId := sessionId;
            a_isCreator := js_or isCreator (Some (JBool false));
            a_connectedAt := now o |};;
       log ["Connection " ++ connectionId ++ " joined league " ++ template leagueId];;
       ret (resp 200 "Joined league"))
    (fun error =>
       log_error ["Error joining league:"; exn_name error];;
       ret (resp 500 "Failed to join league")).

(** One element of [sendPromises]. *)
Definition send_task (o : oracle) (sender : string) (leagueId : jsval)
    (message : json) (connection : Item) : M unit :=
  if decide (connectionId connection = sender) then ret tt
  else
    try_catch
      (post o (connectionId connection) message)
      (fun error =>
         if is_410 (http_status error) then
           log ["Removing stale connection: " ++ connectionId connection];;
           delete_item o leagueId (connectionId connection)
         else
           log_error ["Error sending to " ++ connectionId connection ++ ":";
                      exn_name error]).

(** [timerUpdate]: the creator broadcasts the timer state to the other
    connections of the league.  The management client is built from the
    request context and plays no part in what follows but as the
    transport of [post]; the message is kept as the value that
    [JSON.stringify] prints. *)
Definition timerUpdate (o : oracle) (ev : event) : M response :=
  let connectionId_ := ev_connectionId ev in
  try_catch
    (let* body := parse_body ev in
     destructurable body;;
     let leagueId := get_prop body "leagueId" in
     let timerState := get_prop body "timerState" in
     if negb (truthy leagueId) || negb (truthy timerState) then
       ret (resp 400 "leagueId and timerState are required")
     else
       let* connections := query o leagueId in
       let senderConnection :=
         List.find (fun c => bool_decide (connectionId c = connectionId_)) connections in
       if negb (truthy (senderConnection ≫= isCreator)) then
         ret (resp 403 "Only the creator can update the timer")
       else
         let message :=
           JObj (obj_of [("type", Some (JStr "timerUpdate"));
                         ("timerState", timerState)]) in
         let sendPromises :=
           List.map (send_task o connectionId_ leagueId message) connections in
         promise_all sendPromises;;
         log ["Timer update broadcast to "
              ++ pretty (Z.of_nat (length connections) - 1) ++ " clients"];;
         ret (resp 200 "Timer update broadcast"))
    (fun error =>
       log_error ["Error broadcasting timer update:"; exn_name error];;
       ret (resp 500 "Failed to broadcast timer update")).

End Handlers.

(** ** Observations on a run *)

(** The [PostToConnection] calls and the store commands made between two
    worlds of one run. *)
Definition new_posts (w w' : world) : list (string * json) :=
  drop (length (sent w)) (sent w').

Definition new_calls (w w' : world) : list store_op :=
  drop (length (calls w)) (calls w').

(** The connections a delivery was attempted to, oldest first. *)
Definition attempted (w w' : world) : list string := (new_posts w w').*1.

(** Deliveries that went through, and records that left the table. *)
Definition delivered_count (o : oracle) (w w' : world) : nat :=
  length (filter (fun p => post_to_connection o p.1 p.2 = PostOk) (new_posts w w')).

Definition pruned_count (w w' : world) : nat :=
  size (table w) - size (table w').

(** The transport reports the connection as gone (410) for this message. *)
Definition gone (o : oracle) (msg : json) (cid : string) : bool :=
  match post_to_connection o cid msg with
  | PostError st => is_410 st
  | PostOk => false
  end.

(** The transport fails for this message otherwise than with 410. *)
Definition transient (o : oracle) (msg : json) (cid : string) : bool :=
  match post_to_connection o cid msg with
  | PostError st => negb (is_410 st)
  | PostOk => false
  end.

(** The message a timer update with state [ts] fans out. *)
Definition update_message (ts : json) : json :=
  JObj [("type", JStr "timerUpdate"); ("timerState", ts)].

(** The event carries a timer update for room [lid] with timer state [ts]
    that passes the handler's validation. *)
Definition timer_request (JSON_parse : string -> option json)
    (ev : event) (lid : string) (ts : json) : Prop :=
  exists b,
    JSON_parse (body_text ev) = Some b /\
    get_prop b "leagueId" = Some (JStr lid) /\ lid <> "" /\
    get_prop b "timerState" = Some ts /\ truthy (Some ts) = true.

(** The event carries a join of room [lid] with the given session and
    creator flag that passes the handler's validation. *)
Definition join_request (JSON_parse : string -> option json)
    (ev : event) (lid : string) (sid ic : jsval) : Prop :=
  exists b,
    JSON_parse (body_text ev) = Some b /\
    get_prop b "leagueId" = Some (JStr lid) /\ lid <> "" /\
    get_prop b "sessionId" = sid /\ truthy sid = true /\
    get_prop b "isCreator" = ic.

(** The sender holds a record in room [lid] whose creator flag is truthy. *)
Definition is_creator (w : world) (lid cid : string) : Prop :=
  exists a, table w !! (lid, cid) = Some a /\ truthy (a_isCreator a) = true.

(** ** The fan-out, record by record *)

(** What one element of [sendPromises] does depends on which of these
    hold for its connection record [c]; [sender] is the connection the
    update came from, [lid] the room and [msg] the message. *)
Definition is_target (sender : string) (c : Item) : Prop :=
  connectionId c <> sender.

Definition is_gone (o : oracle) (msg : json) (sender : string) (c : Item) : Prop :=
  connectionId c <> sender /\ gone o msg (connectionId c) = true.

Definition is_pruned (o : oracle) (lid : string) (msg : json) (sender : string)
    (c : Item) : Prop :=
  is_gone o msg sender c /\ store_fails o (OpDelete (lid, connectionId c)) = false.

Definition prune_fails (o : oracle) (lid : string) (msg : json) (sender : string)
    (c : Item) : Prop :=
  is_gone o msg sender c /\ store_fails o (OpDelete (lid, connectionId c)) = true.

Global Instance is_target_dec sender c : Decision (is_target sender c).
Proof. unfold is_target. apply _. Defined.

Global Instance is_gone_dec o msg sender c : Decision (is_gone o msg sender c).
Proof. unfold is_gone. apply _. Defined.

Global Instance is_pruned_dec o lid msg sender c : Decision (is_pruned o lid msg sender c).
Proof. unfold is_pruned. apply _. Defined.

Global Instance prune_fails_dec o lid msg sender c :
  Decision (prune_fails o lid msg sender c).
Proof. unfold prune_fails. apply _. Defined.

Definition key_in_room (lid : string) (c : Item) : string * string :=
  (lid, connectionId c).

Definition attrs_of (it : Item) : conn_attrs :=
  {| a_sessionId := sessionId it;
     a_isCreator := isCreator it;
     a_connectedAt := connectedAt it |}.

Definition delete_all (keys : list (string * string))
    (t : gmap (string * string) conn_attrs) : gmap (string * string) conn_attrs :=
  foldl (fun t k => delete k t) t keys.

(** A run that leaves the table and the transport alone, sends the store
    at most one query, and does not answer 200. *)
Definition quiet (w : world) (r : world * (exn + response)) : Prop :=
  table r.1 = table w /\ sent r.1 = sent w /\
  (calls r.1 = calls w \/ exists l, calls r.1 = (calls w ++ [OpQuery l])%list) /\
  exists re, r.2 = inr re /\ statusCode re <> 200.

(** The reading of the broadcast result as a carrier of the two counts:
    some function of the response alone yields, for every broadcast
    answered 200, the number of deliveries that went through and the
    number of records removed. *)
Definition result_carries_counts (JSON_parse : string -> option json) : Prop :=
  exists f : response -> nat * nat,
    forall o ev w w' r,
      timerUpdate JSON_parse o ev w = (w', inr r) ->
      statusCode r = 200 ->
      f r = (delivered_count o w w', pruned_count w w').

(** ** Example data *)

(** Room [abc123] with creator [C1] and two more connections, a second
    room, and request texts with the values they parse to. *)
Module Example.

Definition timer_state : json :=
  JObj [("timerEndTime", JNum 1700000000000);
        ("timerRemainingSeconds", JNum 300);
        ("timerPresetMinutes", JNum 5);
        ("timerIsRunning", JBool true)].

Definition update_body : json :=
  JObj [("leagueId", JStr "abc123"); ("timerState", timer_state)].

Definition join_body (sid : string) (creator : bool) : json :=
  JObj [("leagueId", JStr "abc123"); ("sessionId", JStr sid);
        ("isCreator", JBool creator)].

(** A table-driven stand-in for [JSON.parse] on the texts used below. *)
Definition parse (text : string) : option json :=
  if String.eqb text "{}" then Some (JObj [])
  else if String.eqb text "null" then Some JNull
  else if String.eqb text "update abc123" then Some update_body
  else if String.eqb text "update without timerState" then
    Some (JObj [("leagueId", JStr "abc123")])
  else if String.eqb text "update with empty object" then
    Some (JObj [("leagueId", JStr "abc123"); ("timerState", JObj [])])
  else if String.eqb text "join abc123 S2" then Some (join_body "S2" false)
  else if String.eqb text "join abc123 S2b creator" then Some (join_body "S2b" true)
  else None.

Definition record (sid : string) (creator : bool) : conn_attrs :=
  {| a_sessionId := Some (JStr sid);
     a_isCreator := Some (JBool creator);
     a_connectedAt := "2024-01-01T00:00:00.000Z" |}.

Definition room : gmap (string * string) conn_attrs :=
  <[("abc123", "C1") := record "S1" true]>
    (<[("abc123", "C2") := record "S2" false]>
       (<[("abc123", "C3") := record "S3" false]>
          (<[("other", "C9") := record "S9" true]> ∅))).

Definition solo : gmap (string * string) conn_attrs :=
  <[("abc123", "C1") := record "S1" true]> ∅.

Definition world_of (t : gmap (string * string) conn_attrs) : world :=
  {| table := t; calls := []; sent := []; console := [] |}.

Definition update_from (cid : string) : event :=
  {| ev_connectionId := cid; ev_body := Some "update abc123" |}.

Definition clock : string := "2024-01-01T00:05:00.000Z".

(** Every delivery goes through, the store accepts every command. *)
Definition all_fine : oracle :=
  {| now := clock;
     store_fails := fun _ => false;
     post_to_connection := fun _ _ => PostOk |}.

(** [C3] is gone. *)
Definition c3_gone : oracle :=
  {| now := clock;
     store_fails := fun _ => false;
     post_to_connection :=
       fun c _ => if String.eqb c "C3" then PostError (Some 410) else PostOk |}.

(** [C3] is gone and the store rejects every delete. *)
Definition c3_gone_delete_fails : oracle :=
  {| now := clock;
     store_fails := fun op => match op with OpDelete _ => true | _ => false end;
     post_to_connection :=
       fun c _ => if String.eqb c "C3" then PostError (Some 410) else PostOk |}.

(** The delivery to [C3] fails with a 500 of the transport. *)
Definition c3_transient : oracle :=
  {| now := clock;
     store_fails := fun _ => false;
     post_to_connection :=
       fun c _ => if String.eqb c "C3" then PostError (Some 500) else PostOk |}.

(** The store rejects every command. *)
Definition store_down : oracle :=
  {| now := clock;
     store_fails := fun _ => true;
     post_to_connection := fun _ _ => PostOk |}.

End Example.

(** ** Proof automation *)

(** Side conditions on which case a connection record falls in. *)
Ltac fan_side :=
  unfold is_pruned, prune_fails, is_gone, is_target in *; intuition congruence.

(** Unfolds the monad so that the next test of a handler shows. *)
Ltac run_handler :=
  cbv beta iota zeta delta
    [try_catch bind ret throw parse_body query put_item delete_item store_call
     promise_all log log_error].

(** * Properties *)

Implicit Types (t : gmap (string * string) conn_attrs) (w : world) (o : oracle).

(** ** The room listing *)

Lemma elem_of_listing t lid it :
  it ∈ listing t lid ↔
  leagueId it = lid ∧ t !! (lid, connectionId it) = Some (attrs_of it).
Proof.
  unfold listing. rewrite list_elem_of_fmap. split.
  - intros ([[l c] a] & -> & Hin).
    apply list_elem_of_filter in Hin as [Hl Hin]. simpl in Hl. subst l.
    apply elem_of_map_to_list in Hin. destruct a; simpl. auto.
  - intros [Hl Hlook]. exists ((lid, connectionId it), attrs_of it). split.
    + destruct it; simpl in *; subst; reflexivity.
    + apply list_elem_of_filter. split; [reflexivity|].
      by apply elem_of_map_to_list.
Qed.

Lemma listing_ids t lid c :
  c ∈ connectionId <$> listing t lid ↔ is_Some (t !! (lid, c)).
Proof.
  rewrite list_elem_of_fmap. split.
  - intros (it & -> & Hin). apply elem_of_listing in Hin as [_ H]. eauto.
  - intros [a Ha].
    exists {| leagueId := lid; connectionId := c; sessionId := a_sessionId a;
              isCreator := a_isCreator a; connectedAt := a_connectedAt a |}.
    split; [reflexivity|]. apply elem_of_listing. simpl. split; [done|].
    rewrite Ha. by destruct a.
Qed.

Lemma NoDup_listing_ids t lid : NoDup (connectionId <$> listing t lid).
Proof.
  unfold listing. rewrite <- list_fmap_compose.
  apply NoDup_fmap_2_strong.
  - intros [[l1 c1] a1] [[l2 c2] a2] H1 H2 Hc. simpl in Hc. subst c2.
    apply list_elem_of_filter in H1 as [E1 H1], H2 as [E2 H2]. simpl in *. subst.
    apply elem_of_map_to_list in H1, H2. congruence.
  - apply NoDup_filter, NoDup_map_to_list.
Qed.

(** [connections.find(c => c.connectionId === id)?.isCreator] reads the
    creator flag stored under the key (room, id). *)
Lemma find_listing t lid c :
  List.find (fun it => bool_decide (connectionId it = c)) (listing t lid) ≫= isCreator
  = t !! (lid, c) ≫= a_isCreator.
Proof.
  destruct (List.find _ _) as [it|] eqn:Hf.
  - apply List.find_some in Hf as [Hin Hc]. apply bool_decide_eq_true in Hc. subst c.
    apply list_elem_of_In, elem_of_listing in Hin as [_ ->]. reflexivity.
  - destruct (t !! (lid, c)) as [a|] eqn:Ha; [|reflexivity].
    exfalso.
    assert (Hin : c ∈ connectionId <$> listing t lid) by (apply listing_ids; eauto).
    apply list_elem_of_fmap in Hin as (it & -> & Hin).
    apply list_elem_of_In in Hin.
    pose proof (List.find_none _ _ Hf _ Hin) as Hn. simpl in Hn.
    by apply bool_decide_eq_false in Hn.
Qed.

Lemma length_listing_insert t lid k a a0 :
  t !! k = Some a0 →
  length (listing (<[k := a]> t) lid) = length (listing t lid).
Proof.
  intros Hk. unfold listing. rewrite !length_fmap.
  rewrite <- (insert_delete_eq t).
  rewrite map_to_list_insert by apply lookup_delete_eq.
  rewrite <- (map_to_list_delete t k a0 Hk).
  rewrite !filter_cons. simpl. by repeat case_decide.
Qed.

(** Excluding one connection id from a listing that holds it drops exactly
    one record. *)
Lemma length_targets t lid c :
  is_Some (t !! (lid, c)) →
  S (length (filter (is_target c) (listing t lid))) = length (listing t lid).
Proof.
  intros Hc. apply listing_ids in Hc.
  pose proof (NoDup_listing_ids t lid) as Hnd.
  induction (listing t lid) as [|it l IH]; [by apply elem_of_nil in Hc|].
  rewrite fmap_cons in Hc, Hnd. apply NoDup_cons in Hnd as [Hnotin Hnd].
  rewrite filter_cons. unfold is_target at 1.
  destruct (decide (connectionId it ≠ c)) as [Hne|Heq]; simpl.
  - f_equal. apply IH; [|done]. apply elem_of_cons in Hc as [?|?]; congruence.
  - apply dec_stable in Heq. subst c. f_equal. f_equal.
    clear IH Hc Hnd. induction l as [|x l IHl]; [done|].
    rewrite fmap_cons in Hnotin. apply not_elem_of_cons in Hnotin as [Hx Hl].
    rewrite filter_cons_True by (unfold is_target; congruence).
    f_equal. by apply IHl.
Qed.

Lemma lookup_delete_all keys t k :
  delete_all keys t !! k = if decide (k ∈ keys) then None else t !! k.
Proof.
  unfold delete_all. revert t. induction keys as [|k0 keys IH]; intros t; simpl.
  - destruct (decide (k ∈ [])) as [H|_]; [by apply elem_of_nil in H|done].
  - rewrite IH. destruct (decide (k = k0)) as [->|Hne].
    + rewrite lookup_delete_eq. rewrite (decide_True (P := k0 ∈ k0 :: keys)) by left.
      by case_decide.
    + rewrite lookup_delete_ne by done.
      apply decide_ext. rewrite elem_of_cons. tauto.
Qed.

(** ** The fan-out *)

Section Fanout.

Variables (o : oracle) (sender : string) (leagueId_ : jsval) (lid : string)
          (msg : json).
Hypothesis Hkey : key_of leagueId_ = Some lid.

(** All effects of running the send tasks of a connection list: who is
    posted to, which deletes are sent, what leaves the table, and
    whether the combined promise rejects. *)
Lemma settle_all_fanout conns w :
  let r := settle_all (List.map (send_task o sender leagueId_ msg) conns) w in
  sent r.1
    = (sent w ++ ((fun c => (connectionId c, msg)) <$> filter (is_target sender) conns))%list ∧
  calls r.1
    = (calls w ++ ((fun c => OpDelete (key_in_room lid c))
                     <$> filter (is_gone o msg sender) conns))%list ∧
  table r.1
    = delete_all (key_in_room lid <$> filter (is_pruned o lid msg sender) conns) (table w) ∧
  first_rejection r.2
    = (if decide (Exists (prune_fails o lid msg sender) conns)
       then Some StoreError else None).
Proof.
  unfold delete_all, key_in_room.
  revert w. induction conns as [|c conns IH]; intros w; simpl.
  - rewrite !app_nil_r. by repeat split.
  - destruct (send_task o sender leagueId_ msg c w) as [w1 r1] eqn:Hstep.
    specialize (IH w1).
    destruct (settle_all _ w1) as [w2 rs]. simpl in *.
    destruct IH as (IHs & IHc & IHt & IHr).
    rewrite IHs, IHc, IHt.
    unfold send_task, try_catch, post, bind, delete_item, store_call, log,
      log_error, ret in Hstep.
    rewrite Hkey in Hstep.
    destruct (decide (connectionId c = sender)) as [Heq|Hne].
    { injection Hstep as <- <-.
      rewrite (filter_cons_False (is_target sender)),
        (filter_cons_False (is_gone o msg sender)),
        (filter_cons_False (is_pruned o lid msg sender)) by fan_side.
      split_and!; try done. simpl. rewrite IHr.
      apply decide_ext. rewrite Exists_cons. fan_side. }
    simpl in Hstep.
    rewrite (filter_cons_True (is_target sender)) by fan_side.
    destruct (post_to_connection o (connectionId c) msg) as [|st] eqn:Hpost;
      simpl in Hstep.
    { assert (gone o msg (connectionId c) = false)
        by (unfold gone; by rewrite Hpost).
      injection Hstep as <- <-. simpl.
      rewrite (filter_cons_False (is_gone o msg sender)),
        (filter_cons_False (is_pruned o lid msg sender)) by fan_side.
      rewrite <- !app_assoc. split_and!; try done.
      rewrite IHr. apply decide_ext. rewrite Exists_cons. fan_side. }
    assert (Hg : gone o msg (connectionId c) = is_410 st)
      by (unfold gone; by rewrite Hpost).
    destruct (is_410 st) eqn:H410; simpl in Hstep.
    + rewrite (filter_cons_True (is_gone o msg sender)) by fan_side.
      destruct (store_fails o (OpDelete (lid, connectionId c))) eqn:Hf;
        injection Hstep as <- <-; simpl.
      * rewrite (filter_cons_False (is_pruned o lid msg sender)) by fan_side.
        rewrite <- !app_assoc. split_and!; try done.
        rewrite decide_True; [done|]. apply Exists_cons. left. fan_side.
      * rewrite (filter_cons_True (is_pruned o lid msg sender)) by fan_side.
        rewrite <- !app_assoc. split_and!; try done.
        rewrite IHr. apply decide_ext. rewrite Exists_cons. fan_side.
    + injection Hstep as <- <-; simpl.
      rewrite (filter_cons_False (is_gone o msg sender)),
        (filter_cons_False (is_pruned o lid msg sender)) by fan_side.
      rewrite <- !app_assoc. split_and!; try done.
      rewrite IHr. apply decide_ext. rewrite Exists_cons. fan_side.
Qed.

(** The order in which the tasks take their turn is immaterial: from a
    permuted connection list the same records leave the table, the
    combined promise settles the same way, and the same posts and store
    commands are made, up to their order. *)
Lemma settle_all_order conns conns' w :
  conns ≡ₚ conns' →
  let r := settle_all (List.map (send_task o sender leagueId_ msg) conns) w in
  let r' := settle_all (List.map (send_task o sender leagueId_ msg) conns') w in
  table r.1 = table r'.1 ∧
  sent r.1 ≡ₚ sent r'.1 ∧
  calls r.1 ≡ₚ calls r'.1 ∧
  first_rejection r.2 = first_rejection r'.2.
Proof.
  intros Hperm r r'.
  destruct (settle_all_fanout conns w) as (Hs & Hc & Ht & Hr).
  destruct (settle_all_fanout conns' w) as (Hs' & Hc' & Ht' & Hr').
  fold r in Hs, Hc, Ht, Hr. fold r' in Hs', Hc', Ht', Hr'.
  rewrite Hs, Hc, Ht, Hr, Hs', Hc', Ht', Hr'. split_and!.
  - apply map_eq. intros k. rewrite !lookup_delete_all.
    apply decide_ext. by rewrite Hperm.
  - by rewrite Hperm.
  - by rewrite Hperm.
  - apply decide_ext. by rewrite Hperm.
Qed.

End Fanout.

(** ** The paths through [timerUpdate] *)


Section TimerUpdate.

Variable JSON_parse : string -> option json.

Lemma truthy_key v lid :
  key_of v = Some lid → truthy v = true → v = Some (JStr lid) ∧ lid ≠ "".
Proof.
  destruct v as [[]|]; simpl; try discriminate.
  intros [= ->] H. split; [done|]. intros ->. discriminate.
Qed.

(** An authorised, well-formed update whose query is answered runs the
    send tasks over the room listing and answers by their outcome. *)
Lemma timerUpdate_authorized o ev w lid ts :
  timer_request JSON_parse ev lid ts →
  store_fails o (OpQuery lid) = false →
  is_creator w lid (ev_connectionId ev) →
  timerUpdate JSON_parse o ev w =
    let conns := listing (table w) lid in
    let r := settle_all
               (List.map (send_task o (ev_connectionId ev) (Some (JStr lid))
                            (update_message ts)) conns)
               (with_call (OpQuery lid) w) in
    match first_rejection r.2 with
    | Some e =>
        (with_console
           (console r.1 ++
              [console_error ["Error broadcasting timer update:"; exn_name e]]) r.1,
         inr (resp 500 "Failed to broadcast timer update"))
    | None =>
        (with_console
           (console r.1 ++
              [console_log ["Timer update broadcast to "
                            ++ pretty (Z.of_nat (length conns) - 1) ++ " clients"]]) r.1,
         inr (resp 200 "Timer update broadcast"))
    end.
Proof.
  intros (b & Hparse & Hlid & Hne & Hts & Htruthy) Hq (a & Ha & Hcreator).
  assert (Hl : truthy (Some (JStr lid)) = true).
  { simpl. by destruct (String.eqb_spec lid ""). }
  assert (Hb : destructurable b = ret tt) by (by destruct b).
  unfold timerUpdate. run_handler. rewrite Hparse. run_handler.
  rewrite Hb. run_handler.
  rewrite Hlid, Hts, Htruthy, Hl. cbn [negb orb key_of]. run_handler.
  rewrite Hq. run_handler.
  rewrite find_listing. cbn [table with_call]. rewrite Ha. cbn [mbind option_bind].
  rewrite Hcreator. cbn [negb]. run_handler.
  change (JObj (obj_of _)) with (update_message ts).
  destruct (settle_all _ _) as [w1 rs]. cbn [fst snd].
  by destruct (first_rejection rs).
Qed.

(** The same run, effect by effect: who is posted to, which store
    commands are sent, what leaves the table, and the answer, which is
    500 exactly when the delete of a gone record is rejected. *)
Lemma timerUpdate_fanout o ev w lid ts :
  timer_request JSON_parse ev lid ts →
  store_fails o (OpQuery lid) = false →
  is_creator w lid (ev_connectionId ev) →
  let sender := ev_connectionId ev in
  let msg := update_message ts in
  let conns := listing (table w) lid in
  let r := timerUpdate JSON_parse o ev w in
  sent r.1
    = (sent w ++ ((fun c => (connectionId c, msg)) <$> filter (is_target sender) conns))%list ∧
  calls r.1
    = (calls w ++ OpQuery lid ::
         ((fun c => OpDelete (key_in_room lid c))
            <$> filter (is_gone o msg sender) conns))%list ∧
  table r.1
    = delete_all (key_in_room lid <$> filter (is_pruned o lid msg sender) conns) (table w) ∧
  r.2 = inr (if decide (Exists (prune_fails o lid msg sender) conns)
             then resp 500 "Failed to broadcast timer update"
             else resp 200 "Timer update broadcast").
Proof.
  intros Hreq Hq Hcr sender msg conns r. subst r.
  rewrite (timerUpdate_authorized o ev w lid ts Hreq Hq Hcr). cbv zeta.
  pose proof (settle_all_fanout o sender (Some (JStr lid)) lid msg eq_refl conns
                (with_call (OpQuery lid) w)) as Hfan.
  cbv zeta in Hfan. fold sender conns msg.
  destruct (settle_all _ _) as [w1 rs]. cbn [fst snd] in *.
  destruct Hfan as (Hs & Hc & Ht & Hr). rewrite Hr.
  cbn [calls with_call] in Hc. rewrite <- app_assoc in Hc.
  case_decide; cbn; by rewrite Hs, Hc, Ht.
Qed.

End TimerUpdate.

Section TimerUpdatePaths.

Variable JSON_parse : string -> option json.

Lemma timer_request_room ev lid ts lid' ts' :
  timer_request JSON_parse ev lid ts →
  timer_request JSON_parse ev lid' ts' → lid = lid' ∧ ts = ts'.
Proof.
  intros (b & Hp & Hl & _ & Ht & _) (b' & Hp' & Hl' & _ & Ht' & _).
  split; congruence.
Qed.

(** A body that parses to a value other than [null] and lacks a truthy
    [leagueId] or [timerState] is answered 400 with the world untouched. *)
Lemma timerUpdate_invalid o ev w b :
  JSON_parse (body_text ev) = Some b → b ≠ JNull →
  truthy (get_prop b "leagueId") = false ∨ truthy (get_prop b "timerState") = false →
  timerUpdate JSON_parse o ev w
  = (w, inr (resp 400 "leagueId and timerState are required")).
Proof.
  intros Hparse Hnull Hfalsy.
  assert (Hb : destructurable b = ret tt) by (by destruct b).
  unfold timerUpdate. run_handler. rewrite Hparse. run_handler.
  rewrite Hb. run_handler.
  destruct Hfalsy as [-> | ->]; cbn [negb orb]; [done|].
  by rewrite orb_true_r.
Qed.

(** A well-formed update from a connection that is not a creator of the
    room is answered 403 after the query, and nothing else happens. *)
Lemma timerUpdate_forbidden o ev w lid ts :
  timer_request JSON_parse ev lid ts →
  store_fails o (OpQuery lid) = false →
  truthy (table w !! (lid, ev_connectionId ev) ≫= a_isCreator) = false →
  timerUpdate JSON_parse o ev w
  = (with_call (OpQuery lid) w,
     inr (resp 403 "Only the creator can update the timer")).
Proof.
  intros (b & Hparse & Hlid & Hne & Hts & Htruthy) Hq Hnot.
  assert (Hl : truthy (Some (JStr lid)) = true).
  { simpl. by destruct (String.eqb_spec lid ""). }
  assert (Hb : destructurable b = ret tt) by (by destruct b).
  unfold timerUpdate. run_handler. rewrite Hparse. run_handler.
  rewrite Hb. run_handler.
  rewrite Hlid, Hts, Htruthy, Hl. cbn [negb orb key_of]. run_handler.
  rewrite Hq. run_handler.
  rewrite find_listing. cbn [table with_call]. by rewrite Hnot.
Qed.

(** Anything but an authorised, well-formed update with an answered
    query is [quiet]. *)
Lemma timerUpdate_cases o ev w :
  quiet w (timerUpdate JSON_parse o ev w) ∨
  ∃ lid ts,
    timer_request JSON_parse ev lid ts ∧
    store_fails o (OpQuery lid) = false ∧
    is_creator w lid (ev_connectionId ev).
Proof.
  destruct (JSON_parse (body_text ev)) as [b|] eqn:Hparse; cycle 1.
  { left. unfold timerUpdate. run_handler. rewrite Hparse. run_handler.
    unfold quiet; cbn. split_and!; eauto. }
  assert (Hdec : b = JNull ∨ b ≠ JNull) by (destruct b; auto).
  destruct Hdec as [->|Hnull].
  { left. unfold timerUpdate. run_handler. rewrite Hparse. run_handler.
    unfold quiet; cbn. split_and!; eauto. }
  destruct (truthy (get_prop b "leagueId")) eqn:Hl; cycle 1.
  { left. rewrite (timerUpdate_invalid o ev w b) by auto.
    unfold quiet; cbn. split_and!; eauto. }
  destruct (truthy (get_prop b "timerState")) eqn:Ht; cycle 1.
  { left. rewrite (timerUpdate_invalid o ev w b) by auto.
    unfold quiet; cbn. split_and!; eauto. }
  assert (Hb : destructurable b = ret tt) by (by destruct b).
  destruct (key_of (get_prop b "leagueId")) as [lid|] eqn:Hkey; cycle 1.
  { left. unfold timerUpdate. run_handler. rewrite Hparse. run_handler.
    rewrite Hb. run_handler. rewrite Hl, Ht. cbn [negb orb]. run_handler.
    rewrite Hkey. unfold quiet; cbn. split_and!; eauto. }
  destruct (truthy_key _ _ Hkey Hl) as [Hlid Hne].
  destruct (get_prop b "timerState") as [ts|] eqn:Hts; [|discriminate].
  assert (Hreq : timer_request JSON_parse ev lid ts) by (exists b; auto).
  destruct (store_fails o (OpQuery lid)) eqn:Hq.
  { left. unfold timerUpdate. run_handler. rewrite Hparse. run_handler.
    rewrite Hb. run_handler. rewrite Hl, Hts, Ht, Hlid. cbn [negb orb key_of].
    run_handler. rewrite Hq. unfold quiet; cbn. split_and!; eauto. }
  destruct (truthy (table w !! (lid, ev_connectionId ev) ≫= a_isCreator)) eqn:Hc.
  - right. exists lid, ts. split_and!; try done.
    destruct (table w !! (lid, ev_connectionId ev)) as [a|] eqn:Ha; [|discriminate].
    exists a. by split.
  - left. rewrite (timerUpdate_forbidden o ev w lid ts) by auto.
    unfold quiet; cbn. split_and!; eauto.
Qed.

End TimerUpdatePaths.

(** ** Reading a run off the two worlds *)

Lemma attempted_app w w' (posts : list (string * json)) :
  sent w' = (sent w ++ posts)%list → attempted w w' = posts.*1.
Proof.
  intros H. unfold attempted, new_posts. by rewrite H, drop_app_length.
Qed.

Lemma new_calls_app w w' (ops : list store_op) :
  calls w' = (calls w ++ ops)%list → new_calls w w' = ops.
Proof.
  intros H. unfold new_calls. by rewrite H, drop_app_length.
Qed.

Lemma fst_posts (msg : json) (conns : list Item) :
  ((fun c => (connectionId c, msg)) <$> conns).*1 = connectionId <$> conns.
Proof. rewrite <- list_fmap_compose. done. Qed.

(** Membership in the keys the fan-out removes. *)
Lemma elem_of_pruned_keys o lid msg sender t k :
  k ∈ key_in_room lid <$> filter (is_pruned o lid msg sender) (listing t lid) ↔
  k.1 = lid ∧ is_Some (t !! k) ∧ k.2 ≠ sender ∧
  gone o msg k.2 = true ∧ store_fails o (OpDelete k) = false.
Proof.
  rewrite list_elem_of_fmap. unfold key_in_room. split.
  - intros (c & -> & Hin). apply list_elem_of_filter in Hin as [[[Hne Hg] Hf] Hin].
    apply elem_of_listing in Hin as [_ Hin]. simpl. eauto 10.
  - destruct k as [l c]. simpl. intros (-> & Hsome & Hne & Hg & Hf).
    apply listing_ids, list_elem_of_fmap in Hsome as (it & -> & Hin).
    exists it. split; [done|]. apply list_elem_of_filter. split; [|done].
    by repeat split.
Qed.

(** Membership in the connections the fan-out posts to. *)
Lemma elem_of_targets t lid sender c :
  c ∈ connectionId <$> filter (is_target sender) (listing t lid) ↔
  is_Some (t !! (lid, c)) ∧ c ≠ sender.
Proof.
  rewrite list_elem_of_fmap. split.
  - intros (it & -> & Hin). apply list_elem_of_filter in Hin as [Hne Hin].
    split; [|done]. apply listing_ids. by apply list_elem_of_fmap_2.
  - intros [Hsome Hne].
    apply listing_ids, list_elem_of_fmap in Hsome as (it & -> & Hin).
    exists it. split; [done|]. by apply list_elem_of_filter.
Qed.


(** ** More on the paths through [timerUpdate] and [joinLeague] *)

Section MorePaths.

Variable JSON_parse : string -> option json.

(** The connections an authorised run posts to, in order. *)
Lemma attempted_targets o ev w lid ts :
  timer_request JSON_parse ev lid ts →
  store_fails o (OpQuery lid) = false →
  is_creator w lid (ev_connectionId ev) →
  attempted w (timerUpdate JSON_parse o ev w).1
  = connectionId <$> filter (is_target (ev_connectionId ev)) (listing (table w) lid).
Proof.
  intros Hreq Hq Hcr.
  destruct (timerUpdate_fanout JSON_parse o ev w lid ts Hreq Hq Hcr) as (Hs & _).
  apply attempted_app in Hs. by rewrite fst_posts in Hs.
Qed.

(** The last console line of an authorised run. *)
Lemma timerUpdate_last_line o ev w lid ts :
  timer_request JSON_parse ev lid ts →
  store_fails o (OpQuery lid) = false →
  is_creator w lid (ev_connectionId ev) →
  let conns := listing (table w) lid in
  last (console (timerUpdate JSON_parse o ev w).1)
  = Some (if decide (Exists (prune_fails o lid (update_message ts)
                               (ev_connectionId ev)) conns)
          then console_error ["Error broadcasting timer update:"; "StoreError"]
          else console_log ["Timer update broadcast to "
                            ++ pretty (Z.of_nat (length conns) - 1) ++ " clients"]).
Proof.
  intros Hreq Hq Hcr conns.
  rewrite (timerUpdate_authorized JSON_parse o ev w lid ts Hreq Hq Hcr). cbv zeta.
  pose proof (settle_all_fanout o (ev_connectionId ev) (Some (JStr lid)) lid
                (update_message ts) eq_refl conns (with_call (OpQuery lid) w))
    as (_ & _ & _ & Hr).
  fold conns. destruct (settle_all _ _) as [w1 rs]. cbn [fst snd] in *.
  rewrite Hr. case_decide; cbn; apply last_snoc.
Qed.

(** Every connection a run posts to holds a record in the room of the
    request and is not the sender. *)
Lemma attempted_in_room o ev w c :
  c ∈ attempted w (timerUpdate JSON_parse o ev w).1 →
  ∃ lid ts, timer_request JSON_parse ev lid ts ∧
            is_Some (table w !! (lid, c)) ∧ c ≠ ev_connectionId ev.
Proof.
  intros Hin.
  destruct (timerUpdate_cases JSON_parse o ev w)
    as [(_ & Hs & _) | (lid & ts & Hreq & Hq & Hcr)].
  - rewrite (attempted_app w _ []) in Hin by (by rewrite app_nil_r).
    by apply elem_of_nil in Hin.
  - exists lid, ts. split; [done|].
    rewrite (attempted_targets o ev w lid ts Hreq Hq Hcr) in Hin.
    by apply elem_of_targets in Hin.
Qed.

(** The handler always answers: whatever is thrown inside its [try]
    block ends in a response. *)
Lemma timerUpdate_answers o ev w :
  ∃ re, (timerUpdate JSON_parse o ev w).2 = inr re.
Proof.
  destruct (timerUpdate_cases JSON_parse o ev w)
    as [(_ & _ & _ & re & Hre & _) | (lid & ts & Hreq & Hq & Hcr)]; [eauto|].
  destruct (timerUpdate_fanout JSON_parse o ev w lid ts Hreq Hq Hcr)
    as (_ & _ & _ & Hr).
  eauto.
Qed.

(** An accepted join writes the record under (room, connection). *)
Lemma joinLeague_accepted o ev w lid sid ic :
  join_request JSON_parse ev lid sid ic →
  store_fails o (OpPut (lid, ev_connectionId ev)) = false →
  let r := joinLeague JSON_parse o ev w in
  table r.1
    = <[(lid, ev_connectionId ev) :=
          {| a_sessionId := sid;
             a_isCreator := js_or ic (Some (JBool false));
             a_connectedAt := now o |}]> (table w) ∧
  new_calls w r.1 = [OpPut (lid, ev_connectionId ev)] ∧
  r.2 = inr (resp 200 "Joined league").
Proof.
  intros (b & Hparse & Hlid & Hne & Hsid & Htruthy & Hic) Hput r. subst r.
  assert (Hl : truthy (Some (JStr lid)) = true).
  { simpl. by destruct (String.eqb_spec lid ""). }
  assert (Hb : destructurable b = ret tt) by (by destruct b).
  unfold joinLeague. run_handler. rewrite Hparse. run_handler.
  rewrite Hb. run_handler.
  rewrite Hlid, Hsid, Hic, Htruthy, Hl. cbn [negb orb key_of]. run_handler.
  rewrite Hput. cbn. split_and!; try done.
  by apply new_calls_app.
Qed.

End MorePaths.
(** * The claims *)

Section Claims.

Variable JSON_parse : string -> option json.


(** C2. A well-formed timer update from a connection that has no record
    in the room, or whose record has a falsy creator flag, is answered
    403; no delivery is attempted and the table is as before (the store
    has only been sent the query). *)
Theorem non_creator_is_refused o ev w lid ts :
  timer_request JSON_parse ev lid ts →
  store_fails o (OpQuery lid) = false →
  (table w !! (lid, ev_connectionId ev) = None ∨
   ∃ a, table w !! (lid, ev_connectionId ev) = Some a ∧
        truthy (a_isCreator a) = false) →
  let r := timerUpdate JSON_parse o ev w in
  r.2 = inr (resp 403 "Only the creator can update the timer") ∧
  attempted w r.1 = [] ∧
  table r.1 = table w ∧
  new_calls w r.1 = [OpQuery lid].
Proof.
  intros Hreq Hq Hnot r. subst r.
  rewrite (timerUpdate_forbidden JSON_parse o ev w lid ts Hreq Hq).
  - cbn. split_and!; try done.
    + apply (attempted_app w _ []). cbn. by rewrite app_nil_r.
    + by apply new_calls_app.
  - destruct Hnot as [-> | (a & -> & Ha)]; [done|exact Ha].
Qed.

(** C5. A timer update whose body parses to a value (other than [null])
    in which [leagueId] or [timerState] is absent or falsy (absent,
    [null], the empty string, [false], 0) is answered 400 whatever the
    store and the transport would do, and the world is left exactly as
    it was: no store command, no delivery, no console line. *)
Theorem invalid_update_is_rejected o ev w b :
  JSON_parse (body_text ev) = Some b →
  b ≠ JNull →
  truthy (get_prop b "leagueId") = false ∨
  truthy (get_prop b "timerState") = false →
  timerUpdate JSON_parse o ev w
  = (w, inr (resp 400 "leagueId and timerState are required")).
Proof. apply timerUpdate_invalid. Qed.

(** C10. A broadcast changes the table only by removing records of the
    room whose delivery reported 410: every key either reads as before,
    or held a record of the room, other than the sender's, whose
    delivery reported gone, and now holds none.  The store is sent no
    put: only queries and the deletes of such records. *)
Theorem broadcast_only_prunes_gone o ev w :
  let w' := (timerUpdate JSON_parse o ev w).1 in
  (∀ k,
     table w' !! k = table w !! k ∨
     (table w' !! k = None ∧ is_Some (table w !! k) ∧
      ∃ ts, timer_request JSON_parse ev k.1 ts ∧
            k.2 ≠ ev_connectionId ev ∧
            gone o (update_message ts) k.2 = true)) ∧
  (∀ op, op ∈ new_calls w w' →
     (∃ l, op = OpQuery l) ∨
     (∃ k ts, op = OpDelete k ∧ is_Some (table w !! k) ∧
              timer_request JSON_parse ev k.1 ts ∧
              k.2 ≠ ev_connectionId ev ∧
              gone o (update_message ts) k.2 = true)).
Proof.
  intros w'. subst w'.
  destruct (timerUpdate_cases JSON_parse o ev w)
    as [(Ht & _ & Hc & _) | (lid & ts & Hreq & Hq & Hcr)].
  - split.
    + intros k. left. by rewrite Ht.
    + intros op Hop. left. destruct Hc as [Hc | [l Hc]].
      * rewrite (new_calls_app w _ []) in Hop by (by rewrite app_nil_r).
        by apply elem_of_nil in Hop.
      * rewrite (new_calls_app w _ _ Hc) in Hop.
        apply list_elem_of_singleton in Hop. eauto.
  - destruct (timerUpdate_fanout JSON_parse o ev w lid ts Hreq Hq Hcr)
      as (_ & Hc & Ht & _).
    split.
    + intros k. rewrite Ht, lookup_delete_all.
      case_decide as Hk; [|by left]. right.
      apply elem_of_pruned_keys in Hk as (<- & Hsome & Hne & Hg & _).
      split_and!; eauto.
    + intros op Hop. rewrite (new_calls_app w _ _ Hc) in Hop.
      apply elem_of_cons in Hop as [-> | Hop]; [eauto|]. right.
      apply list_elem_of_fmap in Hop as (c & -> & Hin).
      apply list_elem_of_filter in Hin as [[Hne Hg] Hin].
      exists (key_in_room lid c), ts. cbn. split_and!; try done.
      apply listing_ids. by apply list_elem_of_fmap_2.
Qed.

(** C3. When a broadcast is answered 200 and the delivery to a
    connection E of the room, other than the sender, reported 410, the
    record of E is out of the table and of the room listing right after
    the broadcast, and no later timer update for that room, run from the
    world the broadcast left, posts to E. *)
Theorem gone_endpoint_is_pruned o ev w lid ts E :
  timer_request JSON_parse ev lid ts →
  is_Some (table w !! (lid, E)) →
  E ≠ ev_connectionId ev →
  gone o (update_message ts) E = true →
  let r := timerUpdate JSON_parse o ev w in
  r.2 = inr (resp 200 "Timer update broadcast") →
  table r.1 !! (lid, E) = None ∧
  (E ∉ connectionId <$> listing (table r.1) lid) ∧
  ∀ o2 ev2 ts2,
    timer_request JSON_parse ev2 lid ts2 →
    E ∉ attempted r.1 (timerUpdate JSON_parse o2 ev2 r.1).1.
Proof.
  intros Hreq Hsome Hne Hgone r H200.
  assert (Hnone : table r.1 !! (lid, E) = None).
  { subst r.
    destruct (timerUpdate_cases JSON_parse o ev w)
      as [(_ & _ & _ & re & Hre & Hcode) | (lid' & ts' & Hreq' & Hq & Hcr)].
    - rewrite Hre in H200. injection H200 as ->. by cbn in Hcode.
    - destruct (timer_request_room JSON_parse ev lid ts lid' ts' Hreq Hreq')
        as [<- <-].
      destruct (timerUpdate_fanout JSON_parse o ev w lid ts Hreq Hq Hcr)
        as (_ & _ & Ht & Hr).
      rewrite Hr in H200.
      destruct (decide (Exists _ _)) as [Hex|Hnex]; [by injection H200|].
      rewrite Ht, lookup_delete_all, decide_True; [done|].
      apply elem_of_pruned_keys. cbn. split_and!; try done.
      destruct (store_fails o (OpDelete (lid, E))) eqn:Hf; [|done].
      exfalso. apply Hnex. apply Exists_exists.
      apply listing_ids, list_elem_of_fmap in Hsome as (it & -> & Hin).
      exists it. split; [done|]. by repeat split. }
  split_and!; [done| |].
  - rewrite listing_ids, Hnone. by intros [? ?].
  - intros o2 ev2 ts2 Hreq2 Hin.
    apply attempted_in_room in Hin as (lid2 & ts2' & Hreq2' & [a Ha] & _).
    destruct (timer_request_room JSON_parse ev2 lid ts2 lid2 ts2' Hreq2 Hreq2')
      as [<- _].
    congruence.
Qed.

(** C4, as the handler has it.  A broadcast answered 200 answers with
    the fixed body "Timer update broadcast", which carries no count; and
    in a room whose only record is the creator's, a broadcast from the
    creator is answered 200 with no delivery attempted, none delivered
    and no record removed. *)
Theorem broadcast_answer_has_fixed_body o ev w :
  let r := timerUpdate JSON_parse o ev w in
  (∀ re, r.2 = inr re → statusCode re = 200 →
         re = resp 200 "Timer update broadcast") ∧
  (∀ lid ts,
     timer_request JSON_parse ev lid ts →
     store_fails o (OpQuery lid) = false →
     is_creator w lid (ev_connectionId ev) →
     length (listing (table w) lid) = 1%nat →
     r.2 = inr (resp 200 "Timer update broadcast") ∧
     attempted w r.1 = [] ∧
     delivered_count o w r.1 = 0%nat ∧
     pruned_count w r.1 = 0%nat).
Proof.
  intros r. subst r. split.
  - intros re Hre Hcode.
    destruct (timerUpdate_cases JSON_parse o ev w)
      as [(_ & _ & _ & re' & Hre' & Hcode') | (lid & ts & Hreq & Hq & Hcr)].
    + congruence.
    + destruct (timerUpdate_fanout JSON_parse o ev w lid ts Hreq Hq Hcr)
        as (_ & _ & _ & Hr).
      rewrite Hr in Hre. injection Hre as <-.
      by case_decide.
  - intros lid ts Hreq Hq Hcr Hlen.
    pose proof (length_targets (table w) lid (ev_connectionId ev)) as Htg.
    destruct Hcr as (a & Ha & Hc).
    rewrite Hlen in Htg. specialize (Htg (ex_intro _ a Ha)).
    assert (Hnil : filter (is_target (ev_connectionId ev)) (listing (table w) lid) = []).
    { apply nil_length_inv. lia. }
    assert (Hcr : is_creator w lid (ev_connectionId ev)) by (by exists a).
    destruct (timerUpdate_fanout JSON_parse o ev w lid ts Hreq Hq Hcr)
      as (Hs & _ & Ht & Hr).
    assert (Hnone : ∀ P `{∀ c, Decision (P c)},
               (∀ c, P c → is_target (ev_connectionId ev) c) →
               filter P (listing (table w) lid) = []).
    { intros P HP Himp. apply elem_of_nil_inv. intros c Hin.
      apply list_elem_of_filter in Hin as [HPc Hin].
      assert (Hin' : c ∈ filter (is_target (ev_connectionId ev)) (listing (table w) lid))
        by (apply list_elem_of_filter; auto).
      rewrite Hnil in Hin'. by apply elem_of_nil in Hin'. }
    rewrite Hnil in Hs. cbn in Hs. rewrite app_nil_r in Hs.
    rewrite (Hnone (is_pruned o lid (update_message ts) (ev_connectionId ev)))
      in Ht by fan_side.
    cbn in Ht.
    split_and!.
    + rewrite Hr. rewrite decide_False; [done|].
      rewrite Exists_exists. intros (c & Hin & Hf).
      assert (Hin' : c ∈ filter (is_target (ev_connectionId ev)) (listing (table w) lid))
        by (apply list_elem_of_filter; split; [fan_side|done]).
      rewrite Hnil in Hin'. by apply elem_of_nil in Hin'.
    + apply (attempted_app w _ []). by rewrite app_nil_r.
    + unfold delivered_count, new_posts. rewrite Hs, drop_all. done.
    + unfold pruned_count. rewrite Ht. lia.
Qed.

(** C6. A delivery to a target T that fails otherwise than with 410
    does not stand in the way of anything else: every other record of
    the room is still posted to, T keeps its record, the answer is 200
    unless the store rejects the delete of a gone record, and answer,
    table, deliveries and store commands are what they would be had the
    delivery to T gone through. *)
Theorem transient_failure_is_absorbed o ev w lid ts T :
  timer_request JSON_parse ev lid ts →
  store_fails o (OpQuery lid) = false →
  is_creator w lid (ev_connectionId ev) →
  T ≠ ev_connectionId ev →
  is_Some (table w !! (lid, T)) →
  transient o (update_message ts) T = true →
  let msg := update_message ts in
  let r := timerUpdate JSON_parse o ev w in
  (∀ c, is_Some (table w !! (lid, c)) → c ≠ ev_connectionId ev →
        c ∈ attempted w r.1) ∧
  table r.1 !! (lid, T) = table w !! (lid, T) ∧
  ((∀ c, gone o msg c = true → store_fails o (OpDelete (lid, c)) = false) →
   r.2 = inr (resp 200 "Timer update broadcast")) ∧
  (∀ o',
     (∀ c, c ≠ T → post_to_connection o' c msg = post_to_connection o c msg) →
     post_to_connection o' T msg = PostOk →
     (∀ op, store_fails o' op = store_fails o op) →
     let r' := timerUpdate JSON_parse o' ev w in
     r'.2 = r.2 ∧ table r'.1 = table r.1 ∧
     sent r'.1 = sent r.1 ∧ calls r'.1 = calls r.1).
Proof.
  intros Hreq Hq Hcr HT Hsome Htr msg r. subst r.
  assert (HgT : gone o msg T = false).
  { unfold gone, transient in *. fold msg in Htr.
    destruct (post_to_connection o T msg); [done|].
    by apply negb_true_iff in Htr. }
  destruct (timerUpdate_fanout JSON_parse o ev w lid ts Hreq Hq Hcr)
    as (Hs & Hc & Ht & Hr). fold msg in Hs, Hc, Ht, Hr.
  split_and!.
  - intros c Hc' Hne.
    rewrite (attempted_targets JSON_parse o ev w lid ts Hreq Hq Hcr).
    by apply elem_of_targets.
  - rewrite Ht, lookup_delete_all, decide_False; [done|].
    rewrite elem_of_pruned_keys. cbn. intros (_ & _ & _ & Hg & _). congruence.
  - intros Hok. rewrite Hr, decide_False; [done|].
    rewrite Exists_exists. intros (c & _ & [[_ Hg] Hf]).
    specialize (Hok _ Hg). congruence.
  - intros o' Hother HokT Hstore r'. subst r'.
    assert (Hq' : store_fails o' (OpQuery lid) = false) by (by rewrite Hstore).
    assert (Hgone : ∀ c, gone o' msg c = gone o msg c).
    { intros c. destruct (decide (c = T)) as [->|Hne].
      - rewrite HgT. unfold gone. by rewrite HokT.
      - unfold gone. by rewrite Hother. }
    destruct (timerUpdate_fanout JSON_parse o' ev w lid ts Hreq Hq' Hcr)
      as (Hs' & Hc' & Ht' & Hr'). fold msg in Hs', Hc', Ht', Hr'.
    rewrite Hs, Hc, Ht, Hr, Hs', Hc', Ht', Hr'.
    rewrite (list_filter_iff (is_gone o' msg (ev_connectionId ev))
               (is_gone o msg (ev_connectionId ev)))
      by (intros c; unfold is_gone; by rewrite Hgone).
    rewrite (list_filter_iff (is_pruned o' lid msg (ev_connectionId ev))
               (is_pruned o lid msg (ev_connectionId ev)))
      by (intros c; unfold is_pruned, is_gone; by rewrite Hgone, Hstore).
    split_and!; try done. f_equal. apply decide_ext.
    rewrite !Exists_exists. apply exist_proper. intros c.
    unfold prune_fails, is_gone. by rewrite Hgone, Hstore.
Qed.

(** C7, as the handler has it.  When the delivery to a record of the
    room, other than the sender's, reports 410 and the store rejects the
    delete of that record, the broadcast is answered 500, the failure is
    the last line written to the console, the delete was sent, and the
    record stays in the table. *)
Theorem rejected_prune_fails_broadcast o ev w lid ts c :
  timer_request JSON_parse ev lid ts →
  store_fails o (OpQuery lid) = false →
  is_creator w lid (ev_connectionId ev) →
  is_Some (table w !! (lid, c)) →
  c ≠ ev_connectionId ev →
  gone o (update_message ts) c = true →
  store_fails o (OpDelete (lid, c)) = true →
  let r := timerUpdate JSON_parse o ev w in
  r.2 = inr (resp 500 "Failed to broadcast timer update") ∧
  last (console r.1)
    = Some (console_error ["Error broadcasting timer update:"; "StoreError"]) ∧
  OpDelete (lid, c) ∈ new_calls w r.1 ∧
  table r.1 !! (lid, c) = table w !! (lid, c).
Proof.
  intros Hreq Hq Hcr Hsome Hne Hg Hf r. subst r.
  pose proof Hsome as Hin.
  apply listing_ids, list_elem_of_fmap in Hin as (it & -> & Hin).
  assert (Hex : Exists (prune_fails o lid (update_message ts) (ev_connectionId ev))
                  (listing (table w) lid)).
  { apply Exists_exists. exists it. split; [done|]. by repeat split. }
  destruct (timerUpdate_fanout JSON_parse o ev w lid ts Hreq Hq Hcr)
    as (_ & Hc & Ht & Hr).
  split_and!.
  - rewrite Hr. by rewrite decide_True.
  - rewrite (timerUpdate_last_line JSON_parse o ev w lid ts Hreq Hq Hcr).
    by rewrite decide_True.
  - rewrite (new_calls_app w _ _ Hc). apply elem_of_cons. right.
    apply (list_elem_of_fmap_2 (fun c => OpDelete (key_in_room lid c))).
    apply list_elem_of_filter. by repeat split.
  - rewrite Ht, lookup_delete_all, decide_False; [done|].
    rewrite elem_of_pruned_keys. cbn. intros (_ & _ & _ & _ & Hf'). congruence.
Qed.

(** C9. Joining a second time with the same connection and room leaves
    the listing of every room as long as it was after the first join;
    the record under that connection then carries the session id of the
    second join and its creator flag ([false] when the flag was absent
    or falsy), and every other record is as the first join left it. *)
Theorem join_is_idempotent o1 o2 ev1 ev2 w lid sid1 ic1 sid2 ic2 :
  ev_connectionId ev1 = ev_connectionId ev2 →
  join_request JSON_parse ev1 lid sid1 ic1 →
  join_request JSON_parse ev2 lid sid2 ic2 →
  store_fails o1 (OpPut (lid, ev_connectionId ev1)) = false →
  store_fails o2 (OpPut (lid, ev_connectionId ev2)) = false →
  let cid := ev_connectionId ev2 in
  let w1 := (joinLeague JSON_parse o1 ev1 w).1 in
  let w2 := (joinLeague JSON_parse o2 ev2 w1).1 in
  (∀ room, length (listing (table w2) room) = length (listing (table w1) room)) ∧
  table w2 !! (lid, cid)
    = Some {| a_sessionId := sid2;
              a_isCreator := js_or ic2 (Some (JBool false));
              a_connectedAt := now o2 |} ∧
  (∀ it, it ∈ listing (table w2) lid → connectionId it = cid →
         sessionId it = sid2 ∧
         isCreator it = js_or ic2 (Some (JBool false)) ∧
         truthy (isCreator it) = truthy ic2) ∧
  (∀ k, k ≠ (lid, cid) → table w2 !! k = table w1 !! k).
Proof.
  intros Hcid Hj1 Hj2 Hp1 Hp2 cid w1 w2.
  destruct (joinLeague_accepted JSON_parse o1 ev1 w lid sid1 ic1 Hj1 Hp1)
    as (Ht1 & _). fold w1 in Ht1.
  destruct (joinLeague_accepted JSON_parse o2 ev2 w1 lid sid2 ic2 Hj2 Hp2)
    as (Ht2 & _). fold w2 cid in Ht2.
  rewrite Hcid in Ht1. fold cid in Ht1.
  assert (Hlook : table w2 !! (lid, cid)
                  = Some {| a_sessionId := sid2;
                            a_isCreator := js_or ic2 (Some (JBool false));
                            a_connectedAt := now o2 |}).
  { rewrite Ht2. apply lookup_insert_eq. }
  split_and!; [|done| |].
  - intros room. rewrite Ht2. eapply length_listing_insert.
    rewrite Ht1. apply lookup_insert_eq.
  - intros it Hin Hc. apply elem_of_listing in Hin as [_ Hin].
    rewrite Hc, Hlook in Hin. injection Hin as <- <- _.
    split_and!; try done. unfold js_or. by destruct (truthy ic2) eqn:E.
  - intros k Hk. rewrite Ht2. by apply lookup_insert_ne.
Qed.


End Claims.

(** * The claims on the example data *)

Section Examples.

Import Example.

Lemma example_request cid :
  timer_request parse (update_from cid) "abc123" timer_state.
Proof. exists update_body. by vm_compute. Defined.

Lemma example_creator : is_creator (world_of room) "abc123" "C1".
Proof. exists (record "S1" true). by vm_compute. Defined.

Lemma example_solo_creator : is_creator (world_of solo) "abc123" "C1".
Proof. exists (record "S1" true). by vm_compute. Defined.

(** The scenario of room [abc123]: [C1] broadcasts, [C3] is gone. *)
Example scenario_c3_gone :
  let w := world_of room in
  let r := timerUpdate parse c3_gone (update_from "C1") w in
  r.2 = inr (resp 200 "Timer update broadcast") ∧
  attempted w r.1 ≡ₚ ["C2"; "C3"] ∧
  delivered_count c3_gone w r.1 = 1%nat ∧
  pruned_count w r.1 = 1%nat ∧
  connectionId <$> listing (table r.1) "abc123" ≡ₚ ["C1"; "C2"].
Proof.
  vm_compute. split_and!; try reflexivity. apply Permutation_swap.
Qed.

(** An empty object passes for a timer state: it is truthy. *)
Example empty_object_is_broadcast :
  (timerUpdate parse all_fine
     {| ev_connectionId := "C1"; ev_body := Some "update with empty object" |}
     (world_of solo)).2
  = inr (resp 200 "Timer update broadcast").
Proof. by vm_compute. Qed.

(** A body that is the text [null], or no JSON at all, is answered 500. *)
Example null_body_is_internal_error :
  (timerUpdate parse all_fine
     {| ev_connectionId := "C1"; ev_body := Some "null" |} (world_of solo)).2
  = inr (resp 500 "Failed to broadcast timer update").
Proof. by vm_compute. Qed.


(** [C2], who is no creator, tries to broadcast. *)
Lemma non_creator_is_refused_witness :
  timer_request parse (update_from "C2") "abc123" timer_state ∧
  store_fails all_fine (OpQuery "abc123") = false ∧
  (table (world_of room) !! ("abc123", "C2") = None ∨
   ∃ a, table (world_of room) !! ("abc123", "C2") = Some a ∧
        truthy (a_isCreator a) = false) ∧
  (timerUpdate parse all_fine (update_from "C2") (world_of room)).2
  = inr (resp 403 "Only the creator can update the timer") ∧
  attempted (world_of room)
    (timerUpdate parse all_fine (update_from "C2") (world_of room)).1 = [] ∧
  table (timerUpdate parse all_fine (update_from "C2") (world_of room)).1 = room.
Proof.
  assert (Hnot : table (world_of room) !! ("abc123", "C2") = None ∨
                 ∃ a, table (world_of room) !! ("abc123", "C2") = Some a ∧
                      truthy (a_isCreator a) = false).
  { right. exists (record "S2" false). by vm_compute. }
  pose proof (non_creator_is_refused parse all_fine (update_from "C2")
                (world_of room) "abc123" timer_state
                (example_request "C2") eq_refl Hnot) as (H1 & H2 & H3 & _).
  split_and!; [apply example_request|reflexivity|exact Hnot|exact H1|exact H2|exact H3].
Defined.

(** [C3] is gone when [C1] broadcasts and the store accepts the delete. *)
Lemma gone_endpoint_is_pruned_witness :
  timer_request parse (update_from "C1") "abc123" timer_state ∧
  is_Some (room !! ("abc123", "C3")) ∧
  "C3" ≠ "C1" ∧
  gone c3_gone (update_message timer_state) "C3" = true ∧
  (timerUpdate parse c3_gone (update_from "C1") (world_of room)).2
  = inr (resp 200 "Timer update broadcast") ∧
  table (timerUpdate parse c3_gone (update_from "C1") (world_of room)).1
    !! ("abc123", "C3") = None.
Proof.
  assert (H3 : is_Some (room !! ("abc123", "C3")))
    by (exists (record "S3" false); by vm_compute).
  assert (Hne : "C3" ≠ "C1") by discriminate.
  pose proof (gone_endpoint_is_pruned parse c3_gone (update_from "C1")
                (world_of room) "abc123" timer_state "C3"
                (example_request "C1") H3 Hne eq_refl eq_refl) as (H & _).
  split_and!; [apply example_request|exact H3|exact Hne|reflexivity|reflexivity|exact H].
Defined.

(** C4 fails as stated: the broadcast in the full room and the one in
    the room with the creator alone are both answered 200 with the same
    response, yet two deliveries went through in the first and none in
    the second, so no function of the response gives the counts. *)
Lemma result_carries_no_counts : ¬ result_carries_counts parse.
Proof.
  intros [f Hf].
  pose proof (Hf all_fine (update_from "C1") (world_of room)
                (timerUpdate parse all_fine (update_from "C1") (world_of room)).1
                (resp 200 "Timer update broadcast") eq_refl eq_refl) as H1.
  pose proof (Hf all_fine (update_from "C1") (world_of solo)
                (timerUpdate parse all_fine (update_from "C1") (world_of solo)).1
                (resp 200 "Timer update broadcast") eq_refl eq_refl) as H2.
  vm_compute in H1, H2. congruence.
Qed.

(** [C1] broadcasts in the room it is alone in. *)
Lemma broadcast_answer_has_fixed_body_witness :
  timer_request parse (update_from "C1") "abc123" timer_state ∧
  store_fails all_fine (OpQuery "abc123") = false ∧
  is_creator (world_of solo) "abc123" "C1" ∧
  length (listing (table (world_of solo)) "abc123") = 1%nat ∧
  (timerUpdate parse all_fine (update_from "C1") (world_of solo)).2
  = inr (resp 200 "Timer update broadcast") ∧
  attempted (world_of solo)
    (timerUpdate parse all_fine (update_from "C1") (world_of solo)).1 = [] ∧
  delivered_count all_fine (world_of solo)
    (timerUpdate parse all_fine (update_from "C1") (world_of solo)).1 = 0%nat ∧
  pruned_count (world_of solo)
    (timerUpdate parse all_fine (update_from "C1") (world_of solo)).1 = 0%nat.
Proof.
  pose proof (proj2 (broadcast_answer_has_fixed_body parse all_fine
                       (update_from "C1") (world_of solo))
                "abc123" timer_state (example_request "C1") eq_refl
                example_solo_creator eq_refl) as (H1 & H2 & H3 & H4).
  split_and!;
    [apply example_request|reflexivity|apply example_solo_creator|reflexivity
    |exact H1|exact H2|exact H3|exact H4].
Defined.

(** An update without [timerState], with the store down. *)
Lemma invalid_update_is_rejected_witness :
  let ev := {| ev_connectionId := "C1";
               ev_body := Some "update without timerState" |} in
  let b := JObj [("leagueId", JStr "abc123")] in
  parse (body_text ev) = Some b ∧
  b ≠ JNull ∧
  (truthy (get_prop b "leagueId") = false ∨
   truthy (get_prop b "timerState") = false) ∧
  timerUpdate parse store_down ev (world_of room)
  = (world_of room, inr (resp 400 "leagueId and timerState are required")).
Proof.
  intros ev b.
  assert (Hb : b ≠ JNull) by discriminate.
  assert (Hf : truthy (get_prop b "leagueId") = false ∨
               truthy (get_prop b "timerState") = false) by (by right).
  split_and!; [reflexivity|exact Hb|exact Hf|].
  exact (invalid_update_is_rejected parse store_down ev (world_of room) b
           eq_refl Hb Hf).
Defined.

(** The delivery to [C3] fails with a 500 of the transport. *)
Lemma transient_failure_is_absorbed_witness :
  timer_request parse (update_from "C1") "abc123" timer_state ∧
  store_fails c3_transient (OpQuery "abc123") = false ∧
  is_creator (world_of room) "abc123" "C1" ∧
  "C3" ≠ "C1" ∧
  is_Some (room !! ("abc123", "C3")) ∧
  transient c3_transient (update_message timer_state) "C3" = true ∧
  (timerUpdate parse c3_transient (update_from "C1") (world_of room)).2
  = inr (resp 200 "Timer update broadcast") ∧
  "C2" ∈ attempted (world_of room)
           (timerUpdate parse c3_transient (update_from "C1") (world_of room)).1.
Proof.
  assert (H3 : is_Some (room !! ("abc123", "C3")))
    by (exists (record "S3" false); by vm_compute).
  assert (H2 : is_Some (room !! ("abc123", "C2")))
    by (exists (record "S2" false); by vm_compute).
  assert (Hne : "C3" ≠ "C1") by discriminate.
  assert (Hne2 : "C2" ≠ "C1") by discriminate.
  pose proof (transient_failure_is_absorbed parse c3_transient (update_from "C1")
                (world_of room) "abc123" timer_state "C3"
                (example_request "C1") eq_refl example_creator Hne H3 eq_refl)
    as (Hall & _ & Hok & _).
  split_and!;
    [apply example_request|reflexivity|apply example_creator|exact Hne|exact H3
    |reflexivity| |].
  - apply Hok. intros c _. reflexivity.
  - exact (Hall "C2" H2 Hne2).
Defined.

(** C7 fails as stated: [C1] broadcasts, the delivery to [C3] reports
    410 and the store rejects the delete of the record of [C3]; the
    broadcast is answered 500, not 200. *)
Lemma rejected_prune_is_not_absorbed :
  timer_request parse (update_from "C1") "abc123" timer_state ∧
  is_creator (world_of room) "abc123" "C1" ∧
  gone c3_gone_delete_fails (update_message timer_state) "C3" = true ∧
  store_fails c3_gone_delete_fails (OpDelete ("abc123", "C3")) = true ∧
  (timerUpdate parse c3_gone_delete_fails (update_from "C1") (world_of room)).2
  = inr (resp 500 "Failed to broadcast timer update").
Proof.
  split_and!; [apply example_request|apply example_creator| | |]; by vm_compute.
Qed.

(** [C3] is gone and the store rejects the delete of its record. *)
Lemma rejected_prune_fails_broadcast_witness :
  timer_request parse (update_from "C1") "abc123" timer_state ∧
  store_fails c3_gone_delete_fails (OpQuery "abc123") = false ∧
  is_creator (world_of room) "abc123" "C1" ∧
  is_Some (room !! ("abc123", "C3")) ∧
  "C3" ≠ "C1" ∧
  gone c3_gone_delete_fails (update_message timer_state) "C3" = true ∧
  store_fails c3_gone_delete_fails (OpDelete ("abc123", "C3")) = true ∧
  (timerUpdate parse c3_gone_delete_fails (update_from "C1") (world_of room)).2
  = inr (resp 500 "Failed to broadcast timer update") ∧
  last (console (timerUpdate parse c3_gone_delete_fails (update_from "C1")
                   (world_of room)).1)
  = Some (console_error ["Error broadcasting timer update:"; "StoreError"]).
Proof.
  assert (H3 : is_Some (room !! ("abc123", "C3")))
    by (exists (record "S3" false); by vm_compute).
  assert (Hne : "C3" ≠ "C1") by discriminate.
  pose proof (rejected_prune_fails_broadcast parse c3_gone_delete_fails
                (update_from "C1") (world_of room) "abc123" timer_state "C3"
                (example_request "C1") eq_refl example_creator H3 Hne
                eq_refl eq_refl) as (H500 & Hlast & _).
  split_and!;
    [apply example_request|reflexivity|apply example_creator|exact H3|exact Hne
    |reflexivity|reflexivity|exact H500|exact Hlast].
Defined.


(** [C2] joins the room of [C1], then joins again with a new session as
    a creator. *)
Lemma join_is_idempotent_witness :
  let ev1 := {| ev_connectionId := "C2"; ev_body := Some "join abc123 S2" |} in
  let ev2 := {| ev_connectionId := "C2";
                ev_body := Some "join abc123 S2b creator" |} in
  let w1 := (joinLeague parse all_fine ev1 (world_of solo)).1 in
  let w2 := (joinLeague parse all_fine ev2 w1).1 in
  ev_connectionId ev1 = ev_connectionId ev2 ∧
  join_request parse ev1 "abc123" (Some (JStr "S2")) (Some (JBool false)) ∧
  join_request parse ev2 "abc123" (Some (JStr "S2b")) (Some (JBool true)) ∧
  store_fails all_fine (OpPut ("abc123", ev_connectionId ev1)) = false ∧
  store_fails all_fine (OpPut ("abc123", ev_connectionId ev2)) = false ∧
  length (listing (table w2) "abc123") = length (listing (table w1) "abc123") ∧
  table w2 !! ("abc123", "C2")
  = Some {| a_sessionId := Some (JStr "S2b");
            a_isCreator := Some (JBool true);
            a_connectedAt := clock |}.
Proof.
  intros ev1 ev2 w1 w2.
  assert (Hj1 : join_request parse ev1 "abc123" (Some (JStr "S2")) (Some (JBool false)))
    by (exists (join_body "S2" false); by vm_compute).
  assert (Hj2 : join_request parse ev2 "abc123" (Some (JStr "S2b")) (Some (JBool true)))
    by (exists (join_body "S2b" true); by vm_compute).
  pose proof (join_is_idempotent parse all_fine all_fine ev1 ev2 (world_of solo)
                "abc123" _ _ _ _ eq_refl Hj1 Hj2 eq_refl eq_refl)
    as (Hlen & Hlook & _).
  split_and!; [reflexivity|exact Hj1|exact Hj2|reflexivity|reflexivity
              |exact (Hlen "abc123")|exact Hlook].
Defined.

End Examples.
